(** * VEML6070 UV sensor driver (MicroPython): a shallow embedding

    The development follows [veml6070.py].  The driver object, the I2C
    bus it talks to and the sleeps it requests are threaded through a
    small state-and-exception monad: a Python exception aborts the rest
    of a method but keeps every assignment made before it. *)

From Stdlib Require Import ZArith QArith Lia.
From Stdlib Require Strings.Byte.
From stdpp Require Import base strings gmap list.

Local Open Scope string_scope.
Local Open Scope Z_scope.
Local Open Scope list_scope.

(** ** Module-level constants *)

Definition const (z : Z) : Z := z.

Definition VEML6070_ADDR_ARA : Z := const (Z.shiftr 0x18 1).
Definition VEML6070_ADDR_CMD : Z := const (Z.shiftr 0x70 1).
Definition VEML6070_ADDR_LOW : Z := const (Z.shiftr 0x71 1).
Definition VEML6070_ADDR_HIGH : Z := const (Z.shiftr 0x73 1).

(** Each value of the dictionary is the two-element list
    [[command code, multiplier]], kept here as a pair. *)
Definition VEML6070_INTEGRATION_TIME : gmap string (Z * Z) :=
  <["VEML6070_HALF_T" := (0x00, 0)]>
  (<["VEML6070_1_T" := (0x01, 1)]>
  (<["VEML6070_2_T" := (0x02, 2)]>
  (<["VEML6070_4_T" := (0x03, 4)]> ∅))).

(** Integer names bound at module level.  A name that a method loads
    without binding it locally is looked up here. *)
Definition module_globals : gmap string Z :=
  <["VEML6070_ADDR_ARA" := VEML6070_ADDR_ARA]>
  (<["VEML6070_ADDR_CMD" := VEML6070_ADDR_CMD]>
  (<["VEML6070_ADDR_LOW" := VEML6070_ADDR_LOW]>
  (<["VEML6070_ADDR_HIGH" := VEML6070_ADDR_HIGH]> ∅))).

(** ** Exceptions, bus events, machine state *)

Inductive exn :=
| NameError (name : string)
| UnboundLocalError (name : string)   (* a NameError subclass *)
| KeyError (key : string)
| IndexError
| ValueError (msg : string)
| ZeroDivisionError
| OSError.

Inductive result (A : Type) :=
| Ok (a : A)
| Raise (e : exn).
Arguments Ok {A} a.
Arguments Raise {A} e.

(** What the driver asks of its environment, in program order.  The
    payload of a write is the content of the buffer handed to the bus;
    a read carries the length of the buffer to fill and the [stop]
    argument of the call. *)
Inductive event :=
| writeto_mem (addr memaddr : Z) (data : list Z)
| writeto (addr : Z) (data : list Z)
| readfrom_into (addr : Z) (nbytes : nat) (stop : Z)
| sleep (seconds : Q).

(** The instance attributes of the class, [self.i2c] apart (the bus is
    part of the environment below).  Both buffers are [bytearray(1)]. *)
Record VEML6070 := mkVEML6070 {
  ara_buf : Z;
  buf : Z;
  ack : bool;
  ack_thd : Z;
  integration_time : string;
  rset : string
}.

(** The environment: [i2c n] is the outcome of the [n]-th bus
    transaction, [None] when the transfer fails (the bus method raises
    [OSError]), [Some b] when it is acknowledged, [b] being the byte a
    read clocks in. *)
Record state := mkState {
  self : VEML6070;
  i2c : nat → option Byte.byte;
  tick : nat;
  trace : list event
}.

Definition byte_to_Z (b : Byte.byte) : Z := Z.of_N (Byte.to_N b).

(** ** The monad *)

Definition M (A : Type) : Type := state → result A * state.

Definition ret {A} (a : A) : M A := fun st => (Ok a, st).

Definition raise {A} (e : exn) : M A := fun st => (Raise e, st).

Definition bind {A B} (m : M A) (k : A → M B) : M B :=
  fun st =>
    match m st with
    | (Ok a, st') => k a st'
    | (Raise e, st') => (Raise e, st')
    end.

Notation "x <- m ;; k" := (bind m (fun x => k))
  (at level 100, m at next level, right associativity,
   format "'[v' x  <-  m  ;; '/' k ']'").
Notation "m ;;; k" := (bind m (fun _ => k))
  (at level 100, right associativity,
   format "'[v' m  ;;; '/' k ']'").

(** [try: m / except: h] with a bare [except]. *)
Definition try_except {A} (m : M A) (h : M A) : M A :=
  fun st =>
    match m st with
    | (Ok a, st') => (Ok a, st')
    | (Raise _, st') => h st'
    end.

Definition get_self : M VEML6070 := fun st => (Ok (self st), st).

Definition modify_self (f : VEML6070 → VEML6070) : M unit :=
  fun st => (Ok tt, mkState (f (self st)) (i2c st) (tick st) (trace st)).

(** One bus transaction: it is logged, consumes one outcome of the bus,
    and raises [OSError] when the bus reports failure. *)
Definition transaction (e : event) : M Byte.byte :=
  fun st =>
    let st' := mkState (self st) (i2c st) (S (tick st)) (trace st ++ [e]) in
    match i2c st (tick st) with
    | Some b => (Ok b, st')
    | None => (Raise OSError, st')
    end.

Definition utime_sleep (d : Q) : M unit :=
  fun st => (Ok tt, mkState (self st) (i2c st) (tick st) (trace st ++ [sleep d])).

Definition i2c_writeto_mem (addr memaddr : Z) (data : list Z) : M unit :=
  transaction (writeto_mem addr memaddr data) ;;; ret tt.

Definition i2c_writeto (addr : Z) (data : list Z) : M unit :=
  transaction (writeto addr data) ;;; ret tt.

(** [readfrom_into(addr, buf, 1)] on a one-byte buffer: the filled
    buffer is returned. *)
Definition i2c_readfrom_into (addr : Z) : M (list Z) :=
  b <- transaction (readfrom_into addr 1 1) ;;
  ret [byte_to_Z b].

(** Subscripting a dictionary. *)
Definition getitem {V} (d : gmap string V) (k : string) : M V :=
  match d !! k with
  | Some v => ret v
  | None => raise (KeyError k)
  end.

(** Subscripting a byte sequence. *)
Definition getbyte (l : list Z) (i : nat) : M Z :=
  match l !! i with
  | Some v => ret v
  | None => raise IndexError
  end.

(** Loading a name that is not local to the method. *)
Definition load_global (x : string) : M Z :=
  match module_globals !! x with
  | Some v => ret v
  | None => raise (NameError x)
  end.

(** [self.buf[0] = v]: a bytearray item must lie in [range(0, 256)]. *)
Definition set_buf (v : Z) : M unit :=
  if (0 <=? v) && (v <? 256)
  then modify_self (fun o =>
         mkVEML6070 (ara_buf o) v (ack o) (ack_thd o) (integration_time o) (rset o))
  else raise (ValueError "byte must be in range(0, 256)").

Definition set_integration_time_attr (it : string) : M unit :=
  modify_self (fun o =>
    mkVEML6070 (ara_buf o) (buf o) (ack o) (ack_thd o) it (rset o)).

(** ** The methods of the class *)

(** [__init__(self, i2c, ack=False)].  The six attribute assignments
    come first, on a fresh object. *)
Definition __init__ (ack0 : bool) : M unit :=
  modify_self (fun _ => mkVEML6070 0 0 ack0 0x00 "VEML6070_1_T" "RSET_270K") ;;;
  o <- get_self ;;
  i2c_writeto_mem VEML6070_ADDR_LOW VEML6070_ADDR_ARA [ara_buf o] ;;;
  e <- getitem VEML6070_INTEGRATION_TIME "VEML6070_1_T" ;;
  set_buf (Z.lor (Z.shiftl (Z.b2z ack0) 5) (Z.shiftl (fst e) 2)) ;;;
  o <- get_self ;;
  i2c_writeto VEML6070_ADDR_CMD [buf o].

(** In [set_integration_time] the right-hand side of the buffer
    assignment reads the bare name [ack] (not [self.ack]); it is no
    local of the method, so it is loaded as a global. *)
Definition set_integration_time (it : string) : M bool :=
  if bool_decide (VEML6070_INTEGRATION_TIME !! it = None) then ret false
  else
    set_integration_time_attr it ;;;
    ack0 <- load_global "ack" ;;
    o <- get_self ;;
    e <- getitem VEML6070_INTEGRATION_TIME (integration_time o) ;;
    set_buf (Z.lor (Z.shiftl ack0 5) (Z.shiftl (fst e) 2)) ;;;
    o <- get_self ;;
    i2c_writeto VEML6070_ADDR_CMD [buf o] ;;;
    ret true.

(** The refresh times are Python floats; they are kept as the exact
    rationals their literals denote. *)
Definition case_refresh_rset : gmap string Q :=
  <["RSET_240K" := (1 # 10)%Q]>
  (<["RSET_270K" := (9 # 80)%Q]>
  (<["RSET_300K" := (1 # 8)%Q]>
  (<["RSET_600K" := (1 # 4)%Q]> ∅))).

Definition get_refresh_time : M Q :=
  o <- get_self ;;
  r <- getitem case_refresh_rset (rset o) ;;
  e <- getitem VEML6070_INTEGRATION_TIME (integration_time o) ;;
  ret (r * inject_Z (snd e))%Q.

Definition shutdown : M bool :=
  set_buf 0x03 ;;;
  o <- get_self ;;
  try_except
    (i2c_writeto VEML6070_ADDR_CMD [buf o] ;;; ret true)
    (ret false).

Definition wake : M unit :=
  o <- get_self ;;
  e <- getitem VEML6070_INTEGRATION_TIME (integration_time o) ;;
  set_buf (Z.lor (Z.lor (Z.lor (Z.shiftl (Z.b2z (ack o)) 5)
                               (Z.shiftl (ack_thd o) 4))
                        (Z.shiftl (fst e) 2))
                 0x02) ;;;
  o <- get_self ;;
  i2c_writeto VEML6070_ADDR_CMD [buf o].

Definition read : M Z :=
  wake ;;;
  d <- get_refresh_time ;;
  utime_sleep d ;;;
  lsb <- i2c_readfrom_into VEML6070_ADDR_LOW ;;
  msb <- i2c_readfrom_into VEML6070_ADDR_HIGH ;;
  let read_buf := msb ++ lsb in
  hi <- getbyte read_buf 1 ;;
  lo <- getbyte read_buf 0 ;;
  let raw := Z.lor (Z.shiftl hi 8) lo in
  shutdown ;;;
  ret raw.

(** [raw * (0.05625 / multiplier)]: the float division raises on a zero
    divisor; otherwise the value is kept as an exact rational. *)
Definition uva_light_sensitivity : M Q :=
  raw <- read ;;
  o <- get_self ;;
  e <- getitem VEML6070_INTEGRATION_TIME (integration_time o) ;;
  if snd e =? 0 then raise ZeroDivisionError
  else ret (inject_Z raw * ((9 # 160) / inject_Z (snd e)))%Q.

(** The inner dictionary of risk levels is iterated in the order of its
    literal, so it is kept as an association list; each value is the
    two-element list the source hands to [range]. *)
Definition RISK_LEVEL_RSET_270K : list (string * (Z * Z)) :=
  [("LOW", (0, 560));
   ("MODERATE", (561, 1120));
   ("HIGH", (1121, 1494));
   ("VERY HIGH", (1495, 2054));
   ("EXTREME", (2055, 9999))].

Definition VEML6070_RISK_LEVEL : gmap string (list (string * (Z * Z))) :=
  {["RSET_270K" := RISK_LEVEL_RSET_270K]}.

(** [x in range(start, stop)] for integers. *)
Definition in_range (x start stop : Z) : bool := (start <=? x) && (x <? stop).

(** The [for] loop of [uv_risk]: [risk] is assigned at the first level
    whose range holds [raw_adj], and stays unassigned ([None]) when the
    loop runs to its end. *)
Fixpoint risk_loop (levels : list (string * (Z * Z))) (raw_adj : Z)
  : option string :=
  match levels with
  | [] => None
  | (level, (start, stop)) :: rest =>
      if in_range raw_adj start stop then Some level
      else risk_loop rest raw_adj
  end.

(** [int(raw / div)]: the quotient of a 16-bit reading by 1, 2 or 4 is
    exact as a float, and [int] truncates towards zero. *)
Definition uv_risk : M string :=
  raw <- read ;;
  o <- get_self ;;
  e <- getitem VEML6070_INTEGRATION_TIME (integration_time o) ;;
  let div := snd e in
  if div =? 0 then
    raise (ValueError
      "[veml6070].get_index only available for Integration Times 1, 2, & 4.")
  else
    let raw_adj := Z.quot raw div in
    o <- get_self ;;
    levels <- getitem VEML6070_RISK_LEVEL (rset o) ;;
    match risk_loop levels raw_adj with
    | Some risk => ret risk
    | None => raise (UnboundLocalError "risk")
    end.

(** ** Running the driver on a concrete bus *)

(** A bus that acknowledges every transfer and returns the byte [b] on
    every read. *)
Definition steady_bus (b : Byte.byte) : nat → option Byte.byte :=
  fun _ => Some b.

(** A bus that answers from a finite script and fails afterwards. *)
Definition scripted_bus (l : list (option Byte.byte)) : nat → option Byte.byte :=
  fun n => mjoin (l !! n).

(** The machine before the constructor has run. *)
Definition boot (bus : nat → option Byte.byte) : state :=
  mkState (mkVEML6070 0 0 false 0 "" "") bus 0 [].

(** The machine once [VEML6070(i2c, ack)] has run. *)
Definition constructed (bus : nat → option Byte.byte) (ack0 : bool) : state :=
  snd (__init__ ack0 (boot bus)).

(** A bus that acknowledges the two transfers of the constructor and
    the wake write, delivers [l] at the read of the low data address and
    [m] at the read of the high data address, and acknowledges the
    shutdown write. *)
Definition delivering (l m : Byte.byte) : nat → option Byte.byte :=
  scripted_bus [Some Byte.x00; Some Byte.x00; Some Byte.x00;
                Some l; Some m; Some Byte.x00].

(** A driver constructed with the default [ack=False] on such a bus. *)
Definition driver (l m : Byte.byte) : state :=
  constructed (delivering l m) false.

(** The same driver after a call of [set_integration_time(it)]. *)
Definition driver_in (it : string) (l m : Byte.byte) : state :=
  snd (set_integration_time it (driver l m)).

(** A driver whose bus stops answering once the constructor is done. *)
Definition deaf_driver : state :=
  constructed (scripted_bus [Some Byte.x00; Some Byte.x00]) false.

(** A driver whose [integration_time] attribute was assigned directly,
    with a string that is no key of the dictionary. *)
Definition mistyped_driver : state :=
  mkState (mkVEML6070 0 0 false 0 "VEML6070_8_T" "RSET_270K")
          (steady_bus Byte.x00) 0 [].

(** A bus that takes the constructor's transfers and the wake write and
    then answers the two data reads with [low] and [high]. *)
Definition answering (low high : option Byte.byte) : nat → option Byte.byte :=
  scripted_bus [Some Byte.x00; Some Byte.x00; Some Byte.x00; low; high].

(** The attributes that make up the stored configuration. *)
Definition config (o : VEML6070) : string * bool * Z * string :=
  (integration_time o, ack o, ack_thd o, rset o).

(** A computation keeps the configuration when no run of it, finished
    or aborted, changes one of these attributes. *)
Definition keeps_config {A} (m : M A) : Prop :=
  ∀ st, config (self (snd (m st))) = config (self st).

(** The command byte [wake] composes. *)
Definition wake_byte (o : VEML6070) (code : Z) : Z :=
  Z.lor (Z.lor (Z.lor (Z.shiftl (Z.b2z (ack o)) 5) (Z.shiftl (ack_thd o) 4))
               (Z.shiftl code 2))
        0x02.

Definition with_buf (o : VEML6070) (v : Z) : VEML6070 :=
  mkVEML6070 (ara_buf o) v (ack o) (ack_thd o) (integration_time o) (rset o).

(** The configurations the methods are meant to run on: the integration
    time and the resistor setting are keys of their dictionaries and the
    threshold is a bit. *)
Definition well_formed (o : VEML6070) : Prop :=
  is_Some (VEML6070_INTEGRATION_TIME !! integration_time o) ∧
  (ack_thd o = 0 ∨ ack_thd o = 1) ∧
  is_Some (case_refresh_rset !! rset o).

(** The drivers a program can hold: one whose constructor returned,
    and then any method called on it, whether the call returned or
    raised (the caller catching the exception). *)
Inductive reachable : state → Prop :=
| reach_constructed bus ack0 :
    fst (__init__ ack0 (boot bus)) = Ok tt →
    reachable (constructed bus ack0)
| reach_set_integration_time it st :
    reachable st → reachable (snd (set_integration_time it st))
| reach_get_refresh_time st :
    reachable st → reachable (snd (get_refresh_time st))
| reach_read st :
    reachable st → reachable (snd (read st))
| reach_uva_light_sensitivity st :
    reachable st → reachable (snd (uva_light_sensitivity st))
| reach_uv_risk st :
    reachable st → reachable (snd (uv_risk st))
| reach_shutdown st :
    reachable st → reachable (snd (shutdown st))
| reach_wake st :
    reachable st → reachable (snd (wake st)).

(** What the methods rely on in the attributes: the integration time
    is a key of its dictionary, the threshold is the 0 of the
    constructor and the resistor setting is the one the risk table
    knows. *)
Definition steady (o : VEML6070) : Prop :=
  is_Some (VEML6070_INTEGRATION_TIME !! integration_time o) ∧
  ack_thd o = 0 ∧
  rset o = "RSET_270K".

(** A computation that leaves the whole machine as it found it. *)
Definition keeps_state {A} (m : M A) : Prop :=
  ∀ st, snd (m st) = st.

(** ** Dictionaries *)

Lemma integration_time_inv it code mult :
  VEML6070_INTEGRATION_TIME !! it = Some (code, mult) →
  (it = "VEML6070_HALF_T" ∧ code = 0 ∧ mult = 0) ∨
  (it = "VEML6070_1_T" ∧ code = 1 ∧ mult = 1) ∨
  (it = "VEML6070_2_T" ∧ code = 2 ∧ mult = 2) ∨
  (it = "VEML6070_4_T" ∧ code = 3 ∧ mult = 4).
Proof.
  unfold VEML6070_INTEGRATION_TIME.
  rewrite !lookup_insert_Some, lookup_empty.
  intros [[<- [= <- <-]] | [_ [[<- [= <- <-]] | [_ [[<- [= <- <-]] | [_ H]]]]]].
  - by left.
  - right; by left.
  - right; right; by left.
  - destruct H as [[<- [= <- <-]] | [_ [=]]]. by repeat right.
Qed.

Lemma integration_time_keys it :
  is_Some (VEML6070_INTEGRATION_TIME !! it) ↔
  it ∈ ["VEML6070_HALF_T"; "VEML6070_1_T"; "VEML6070_2_T"; "VEML6070_4_T"].
Proof.
  split.
  - intros [[code mult] H]. apply integration_time_inv in H.
    rewrite !elem_of_cons. tauto.
  - intros H. repeat (apply elem_of_cons in H as [-> | H]); try (by eexists).
    by apply elem_of_nil in H.
Qed.

Lemma wake_byte_range o code mult :
  VEML6070_INTEGRATION_TIME !! integration_time o = Some (code, mult) →
  ack_thd o = 0 ∨ ack_thd o = 1 →
  (0 <=? wake_byte o code) && (wake_byte o code <? 256) = true.
Proof.
  intros Hit Hthd. unfold wake_byte.
  apply integration_time_inv in Hit.
  destruct (ack o); destruct Hthd as [-> | ->];
    destruct Hit as [(_ & -> & _) | [(_ & -> & _) | [(_ & -> & _) | (_ & -> & _)]]];
    reflexivity.
Qed.

(** ** How single steps run *)

Lemma bind_ok {A B} (m : M A) (k : A → M B) st a st' :
  m st = (Ok a, st') → bind m k st = k a st'.
Proof. intros H. unfold bind. by rewrite H. Qed.

Lemma bind_raise {A B} (m : M A) (k : A → M B) st e st' :
  m st = (Raise e, st') → bind m k st = (Raise e, st').
Proof. intros H. unfold bind. by rewrite H. Qed.

Lemma set_buf_run v st :
  (0 <=? v) && (v <? 256) = true →
  set_buf v st = (Ok tt, mkState (with_buf (self st) v) (i2c st) (tick st) (trace st)).
Proof. intros H. unfold set_buf. by rewrite H. Qed.

(** [wake] on a configuration whose integration time is a key of the
    dictionary: exactly one write, of the composed byte, which the bus
    may refuse. *)
Lemma wake_run st code mult :
  VEML6070_INTEGRATION_TIME !! integration_time (self st) = Some (code, mult) →
  ack_thd (self st) = 0 ∨ ack_thd (self st) = 1 →
  wake st =
    (match i2c st (tick st) with Some _ => Ok tt | None => Raise OSError end,
     mkState (with_buf (self st) (wake_byte (self st) code)) (i2c st)
             (S (tick st))
             (trace st ++ [writeto VEML6070_ADDR_CMD [wake_byte (self st) code]])).
Proof.
  intros Hit Hthd.
  pose proof (wake_byte_range _ _ _ Hit Hthd) as Hr.
  unfold wake, bind, get_self, getitem. rewrite Hit. cbn [ret fst].
  fold (wake_byte (self st) code).
  rewrite (set_buf_run _ _ Hr). cbn.
  unfold i2c_writeto, bind, transaction. cbn.
  by destruct (i2c st (tick st)).
Qed.

(** [shutdown] never raises: one write of the literal 3, whose failure
    only shows in the returned flag. *)
Lemma shutdown_run st :
  shutdown st =
    (Ok (bool_decide (is_Some (i2c st (tick st)))),
     mkState (with_buf (self st) 3) (i2c st) (S (tick st))
             (trace st ++ [writeto VEML6070_ADDR_CMD [3]])).
Proof.
  unfold shutdown, bind. rewrite set_buf_run by reflexivity.
  unfold get_self, try_except, i2c_writeto, bind, transaction. cbn.
  destruct (i2c st (tick st)) eqn:E; cbn; f_equal.
Qed.

Lemma get_refresh_time_run st code mult r :
  VEML6070_INTEGRATION_TIME !! integration_time (self st) = Some (code, mult) →
  case_refresh_rset !! rset (self st) = Some r →
  get_refresh_time st = (Ok (r * inject_Z mult)%Q, st).
Proof.
  intros Hit Hr. unfold get_refresh_time, bind, get_self, getitem.
  by rewrite Hr, Hit.
Qed.

Lemma i2c_readfrom_into_run addr st b :
  i2c st (tick st) = Some b →
  i2c_readfrom_into addr st =
    (Ok [byte_to_Z b],
     mkState (self st) (i2c st) (S (tick st))
             (trace st ++ [readfrom_into addr 1 1])).
Proof.
  intros H. unfold i2c_readfrom_into, bind, transaction. by rewrite H.
Qed.

(** A whole measurement on a bus that acknowledges the wake write and
    the two data reads.  The value returned has the byte read from the
    low address in its upper half. *)
Lemma read_run st code mult r b0 l m :
  VEML6070_INTEGRATION_TIME !! integration_time (self st) = Some (code, mult) →
  ack_thd (self st) = 0 ∨ ack_thd (self st) = 1 →
  case_refresh_rset !! rset (self st) = Some r →
  i2c st (tick st) = Some b0 →
  i2c st (S (tick st)) = Some l →
  i2c st (S (S (tick st))) = Some m →
  read st =
    (Ok (Z.lor (Z.shiftl (byte_to_Z l) 8) (byte_to_Z m)),
     mkState (with_buf (self st) 3) (i2c st) (S (S (S (S (tick st)))))
             (trace st ++ [writeto VEML6070_ADDR_CMD [wake_byte (self st) code];
                           sleep (r * inject_Z mult);
                           readfrom_into VEML6070_ADDR_LOW 1 1;
                           readfrom_into VEML6070_ADDR_HIGH 1 1;
                           writeto VEML6070_ADDR_CMD [3]])).
Proof.
  intros Hit Hthd Hr H0 H1 H2. unfold read.
  erewrite bind_ok; [| rewrite (wake_run _ _ _ Hit Hthd), H0; reflexivity].
  erewrite bind_ok; [| by apply (get_refresh_time_run _ code mult r)].
  erewrite bind_ok; [| reflexivity].
  erewrite bind_ok; [| by apply (i2c_readfrom_into_run _ _ l)].
  erewrite bind_ok; [| by apply (i2c_readfrom_into_run _ _ m)].
  cbn [app getbyte lookup list_lookup]. 
  erewrite bind_ok; [| reflexivity].
  erewrite bind_ok; [| reflexivity].
  erewrite bind_ok; [| apply shutdown_run].
  unfold ret. cbn. rewrite <- !app_assoc. reflexivity.
Qed.

(** ** Which steps leave the configuration alone *)

Section Frame.
Context {A B : Type}.

Lemma keeps_ret (a : A) : keeps_config (ret a).
Proof. by intros st. Qed.

Lemma keeps_raise (e : exn) : keeps_config (@raise A e).
Proof. by intros st. Qed.

Lemma keeps_bind (m : M A) (k : A → M B) :
  keeps_config m → (∀ a, keeps_config (k a)) → keeps_config (bind m k).
Proof.
  intros Hm Hk st. unfold bind. specialize (Hm st).
  destruct (m st) as [[a | e] st']; cbn in Hm; [| done].
  by rewrite Hk.
Qed.

Lemma keeps_try_except (m h : M A) :
  keeps_config m → keeps_config h → keeps_config (try_except m h).
Proof.
  intros Hm Hh st. unfold try_except. specialize (Hm st).
  destruct (m st) as [[a | e] st']; cbn in Hm; [done |].
  by rewrite Hh.
Qed.

Lemma keeps_getitem (d : gmap string A) k : keeps_config (getitem d k).
Proof. unfold getitem. by destruct (d !! k). Qed.
End Frame.

Lemma keeps_get_self : keeps_config get_self.
Proof. by intros st. Qed.

Lemma keeps_transaction e : keeps_config (transaction e).
Proof. intros st. unfold transaction. by destruct (i2c st (tick st)). Qed.

Lemma keeps_utime_sleep d : keeps_config (utime_sleep d).
Proof. by intros st. Qed.

Lemma keeps_set_buf v : keeps_config (set_buf v).
Proof. intros st. unfold set_buf. by destruct ((0 <=? v) && (v <? 256)). Qed.

Lemma keeps_getbyte l i : keeps_config (getbyte l i).
Proof. unfold getbyte. destruct (l !! i); [apply keeps_ret | apply keeps_raise]. Qed.

Create HintDb frame.
#[local] Hint Resolve keeps_ret keeps_raise keeps_getitem keeps_get_self
  keeps_transaction keeps_utime_sleep keeps_set_buf keeps_getbyte : frame.

(** Walks through a method body, one statement at a time. *)
Ltac frame_steps :=
  repeat first
    [ apply keeps_bind; [| intros ?]
    | apply keeps_try_except
    | match goal with
      | |- keeps_config (if ?c then _ else _) => destruct c
      | |- keeps_config (match ?x with _ => _ end) => destruct x
      end
    | solve [auto with frame] ].

Lemma keeps_i2c_writeto addr data : keeps_config (i2c_writeto addr data).
Proof. unfold i2c_writeto. frame_steps. Qed.

Lemma keeps_i2c_readfrom_into addr : keeps_config (i2c_readfrom_into addr).
Proof. unfold i2c_readfrom_into. frame_steps. Qed.

#[local] Hint Resolve keeps_i2c_writeto keeps_i2c_readfrom_into : frame.

Lemma keeps_wake : keeps_config wake.
Proof. unfold wake. frame_steps. Qed.

Lemma keeps_shutdown : keeps_config shutdown.
Proof. unfold shutdown. frame_steps. Qed.

Lemma keeps_get_refresh_time : keeps_config get_refresh_time.
Proof. unfold get_refresh_time. frame_steps. Qed.

#[local] Hint Resolve keeps_wake keeps_shutdown keeps_get_refresh_time : frame.

Lemma keeps_read : keeps_config read.
Proof. unfold read. frame_steps. Qed.

#[local] Hint Resolve keeps_read : frame.

Lemma keeps_uva_light_sensitivity : keeps_config uva_light_sensitivity.
Proof. unfold uva_light_sensitivity. frame_steps. Qed.

Lemma keeps_uv_risk : keeps_config uv_risk.
Proof. unfold uv_risk. frame_steps. Qed.

(** ** Configurations the driver can be in *)

Lemma well_formed_config o o' :
  config o' = config o → well_formed o → well_formed o'.
Proof.
  unfold config, well_formed. intros [= Hit _ Hthd Hrset].
  by rewrite Hit, Hthd, Hrset.
Qed.

(** The constructor assigns every attribute before it touches the bus,
    so the configuration it leaves does not depend on the bus. *)
Lemma constructed_config bus ack0 :
  config (self (constructed bus ack0)) = ("VEML6070_1_T", ack0, 0, "RSET_270K").
Proof.
  unfold constructed, __init__.
  erewrite bind_ok; [| reflexivity]. cbv beta.
  match goal with
  | |- config (self (snd (?m ?st))) = _ =>
      assert (keeps_config m) as -> by (unfold i2c_writeto_mem; frame_steps)
  end.
  reflexivity.
Qed.

Lemma constructed_well_formed bus ack0 : well_formed (self (constructed bus ack0)).
Proof.
  pose proof (constructed_config bus ack0) as [= Hit _ Hthd Hrset].
  unfold well_formed. rewrite Hit, Hthd, Hrset.
  split; [by eexists |]. split; [by left | by eexists].
Qed.

(** What a call with a key of the dictionary does: the attribute is
    assigned, then loading [ack] fails. *)
Lemma set_integration_time_key it st :
  is_Some (VEML6070_INTEGRATION_TIME !! it) →
  set_integration_time it st =
    (Raise (NameError "ack"),
     mkState (mkVEML6070 (ara_buf (self st)) (buf (self st)) (ack (self st))
                         (ack_thd (self st)) it (rset (self st)))
             (i2c st) (tick st) (trace st)).
Proof.
  intros Hk. unfold set_integration_time.
  rewrite bool_decide_eq_false_2 by (by apply not_eq_None_Some).
  reflexivity.
Qed.

Lemma set_integration_time_not_key it st :
  VEML6070_INTEGRATION_TIME !! it = None →
  set_integration_time it st = (Ok false, st).
Proof.
  intros Hk. unfold set_integration_time.
  by rewrite bool_decide_eq_true_2.
Qed.

Lemma set_integration_time_well_formed it st :
  well_formed (self st) → well_formed (self (snd (set_integration_time it st))).
Proof.
  intros Hwf. destruct (VEML6070_INTEGRATION_TIME !! it) eqn:E.
  - rewrite set_integration_time_key by (by eexists).
    destruct Hwf as (_ & Hthd & Hrset). cbn. unfold well_formed. cbn.
    rewrite E. by eauto.
  - by rewrite set_integration_time_not_key.
Qed.

(** ** The ranges of the risk table *)

(** The adjusted readings at which the loop ends without a level. *)
Lemma risk_loop_unassigned x :
  risk_loop RISK_LEVEL_RSET_270K x = None ↔
  x < 0 ∨ x = 560 ∨ x = 1120 ∨ x = 1494 ∨ x = 2054 ∨ 9999 <= x.
Proof.
  unfold RISK_LEVEL_RSET_270K, risk_loop, in_range.
  repeat match goal with
         | |- context [?a <=? ?b] => destruct (Z.leb_spec a b)
         | |- context [?a <? ?b] => destruct (Z.ltb_spec a b)
         end; cbn; split; intros Hx; try discriminate; try lia; try done.
Qed.

Ltac pick_level :=
  first [ split; [reflexivity | lia]
        | left; split; [reflexivity | lia]
        | right; pick_level ].

Lemma risk_loop_assigned x level :
  risk_loop RISK_LEVEL_RSET_270K x = Some level ↔
  (level = "LOW" ∧ 0 <= x < 560) ∨
  (level = "MODERATE" ∧ 561 <= x < 1120) ∨
  (level = "HIGH" ∧ 1121 <= x < 1494) ∨
  (level = "VERY HIGH" ∧ 1495 <= x < 2054) ∨
  (level = "EXTREME" ∧ 2055 <= x < 9999).
Proof.
  unfold RISK_LEVEL_RSET_270K, risk_loop, in_range.
  repeat match goal with
         | |- context [?a <=? ?b] => destruct (Z.leb_spec a b)
         | |- context [?a <? ?b] => destruct (Z.ltb_spec a b)
         end; cbn; split;
    try (intros [= <-]; pick_level);
    try discriminate;
    intros [[-> ?] | [[-> ?] | [[-> ?] | [[-> ?] | [-> ?]]]]];
    first [reflexivity | lia].
Qed.

(** ** The constructor on the bus *)

Lemma i2c_writeto_run addr data st :
  i2c_writeto addr data st =
    (match i2c st (tick st) with Some _ => Ok tt | None => Raise OSError end,
     mkState (self st) (i2c st) (S (tick st)) (trace st ++ [writeto addr data])).
Proof. unfold i2c_writeto, bind, transaction. by destruct (i2c st (tick st)). Qed.

Lemma i2c_writeto_mem_run addr memaddr data st :
  i2c_writeto_mem addr memaddr data st =
    (match i2c st (tick st) with Some _ => Ok tt | None => Raise OSError end,
     mkState (self st) (i2c st) (S (tick st))
             (trace st ++ [writeto_mem addr memaddr data])).
Proof. unfold i2c_writeto_mem, bind, transaction. by destruct (i2c st (tick st)). Qed.

(** The bus traffic of the constructor when its first transfer is
    acknowledged: a memory write of the zeroed [ara_buf] to the device
    at the low data address, register [VEML6070_ADDR_ARA], and then the
    write of the first command byte. *)
Lemma constructed_trace bus ack0 b0 :
  bus 0%nat = Some b0 →
  trace (constructed bus ack0) =
    [writeto_mem VEML6070_ADDR_LOW VEML6070_ADDR_ARA [0];
     writeto VEML6070_ADDR_CMD [Z.lor (Z.shiftl (Z.b2z ack0) 5) (Z.shiftl 1 2)]].
Proof.
  intros H0. unfold constructed, __init__.
  erewrite bind_ok; [| reflexivity].
  erewrite bind_ok; [| reflexivity].
  erewrite bind_ok; [| rewrite i2c_writeto_mem_run; cbn; rewrite H0; reflexivity].
  erewrite bind_ok; [| reflexivity].
  erewrite bind_ok; [| by destruct ack0].
  erewrite bind_ok; [| reflexivity].
  rewrite i2c_writeto_run. by destruct ack0.
Qed.

(** When the first transfer fails the constructor stops there. *)
Lemma constructed_trace_failed bus ack0 :
  bus 0%nat = None →
  trace (constructed bus ack0) =
    [writeto_mem VEML6070_ADDR_LOW VEML6070_ADDR_ARA [0]].
Proof.
  intros H0. unfold constructed, __init__.
  erewrite bind_ok; [| reflexivity].
  erewrite bind_ok; [| reflexivity].
  erewrite bind_raise;
    [| rewrite i2c_writeto_mem_run; cbn; rewrite H0; reflexivity].
  reflexivity.
Qed.

(** ** Classification after a measurement *)

Lemma uv_risk_run st code mult r b0 l m :
  VEML6070_INTEGRATION_TIME !! integration_time (self st) = Some (code, mult) →
  ack_thd (self st) = 0 ∨ ack_thd (self st) = 1 →
  case_refresh_rset !! rset (self st) = Some r →
  i2c st (tick st) = Some b0 →
  i2c st (S (tick st)) = Some l →
  i2c st (S (S (tick st))) = Some m →
  fst (uv_risk st) =
    if mult =? 0 then
      Raise (ValueError
        "[veml6070].get_index only available for Integration Times 1, 2, & 4.")
    else
      match VEML6070_RISK_LEVEL !! rset (self st) with
      | None => Raise (KeyError (rset (self st)))
      | Some levels =>
          match risk_loop levels
                  (Z.quot (Z.lor (Z.shiftl (byte_to_Z l) 8) (byte_to_Z m)) mult)
          with
          | Some risk => Ok risk
          | None => Raise (UnboundLocalError "risk")
          end
      end.
Proof.
  intros Hit Hthd Hr H0 H1 H2. unfold uv_risk.
  erewrite bind_ok; [| by eapply read_run].
  erewrite bind_ok; [| reflexivity].
  erewrite bind_ok; [| unfold getitem; cbn; rewrite Hit; reflexivity].
  cbn [snd]. destruct (mult =? 0); [reflexivity |].
  erewrite bind_ok; [| reflexivity].
  unfold bind, getitem. cbn [self rset with_buf].
  destruct (VEML6070_RISK_LEVEL !! rset (self st)) as [levels |]; [| reflexivity].
  cbn. by destruct (risk_loop levels _).
Qed.

Lemma uva_light_sensitivity_run st code mult r b0 l m :
  VEML6070_INTEGRATION_TIME !! integration_time (self st) = Some (code, mult) →
  ack_thd (self st) = 0 ∨ ack_thd (self st) = 1 →
  case_refresh_rset !! rset (self st) = Some r →
  i2c st (tick st) = Some b0 →
  i2c st (S (tick st)) = Some l →
  i2c st (S (S (tick st))) = Some m →
  fst (uva_light_sensitivity st) =
    if mult =? 0 then Raise ZeroDivisionError
    else Ok (inject_Z (Z.lor (Z.shiftl (byte_to_Z l) 8) (byte_to_Z m))
             * ((9 # 160) / inject_Z mult))%Q.
Proof.
  intros Hit Hthd Hr H0 H1 H2. unfold uva_light_sensitivity.
  erewrite bind_ok; [| by eapply read_run].
  erewrite bind_ok; [| reflexivity].
  erewrite bind_ok; [| unfold getitem; cbn; rewrite Hit; reflexivity].
  cbn [snd]. by destruct (mult =? 0).
Qed.

(** Readings that fall inside a range of the table. *)
Lemma uv_risk_examples :
  fst (read (driver Byte.x03 Byte.x20)) = Ok 800 ∧
  fst (uv_risk (driver Byte.x03 Byte.x20)) = Ok "MODERATE" ∧
  fst (read (driver Byte.x08 Byte.x07)) = Ok 2055 ∧
  fst (uv_risk (driver Byte.x08 Byte.x07)) = Ok "EXTREME" ∧
  fst (read (driver_in "VEML6070_2_T" Byte.x08 Byte.xc2)) = Ok 2242 ∧
  fst (uv_risk (driver_in "VEML6070_2_T" Byte.x08 Byte.xc2)) = Ok "HIGH".
Proof. repeat split; vm_compute; reflexivity. Qed.

(** ** The statements of the specification, against the code *)

(** C1 (defect in the code).  A measurement is meant to return
    [(MSB << 8) | LSB].  On a bus that delivers 0x01 from the low data
    address and 0x00 from the high data address that value is 1; [read]
    returns 256, because [msb + lsb] puts the high byte at index 0 and
    the low byte at index 1 before [read_buf[1] << 8 | read_buf[0]]. *)
Theorem read_puts_low_byte_in_upper_half :
  fst (read (driver Byte.x01 Byte.x00)) = Ok 256 ∧
  trace (snd (read (driver Byte.x01 Byte.x00))) =
    trace (driver Byte.x01 Byte.x00) ++
    [writeto VEML6070_ADDR_CMD [6]; sleep (9 # 80);
     readfrom_into VEML6070_ADDR_LOW 1 1; readfrom_into VEML6070_ADDR_HIGH 1 1;
     writeto VEML6070_ADDR_CMD [3]] ∧
  Z.lor (Z.shiftl (byte_to_Z Byte.x00) 8) (byte_to_Z Byte.x01) = 1.
Proof. repeat split; vm_compute; reflexivity. Qed.

(** C2 (defect in the code).  With a recognised mode
    [set_integration_time] is meant to return [True] and write the new
    command byte.  On a freshly constructed driver, called with
    ["VEML6070_2_T"], it stores the mode and then raises
    [NameError] on the name [ack]: nothing is written and nothing is
    returned. *)
Theorem set_integration_time_raises_on_recognised_mode :
  fst (set_integration_time "VEML6070_2_T" (driver Byte.x00 Byte.x00))
    = Raise (NameError "ack") ∧
  integration_time
    (self (snd (set_integration_time "VEML6070_2_T" (driver Byte.x00 Byte.x00))))
    = "VEML6070_2_T" ∧
  trace (snd (set_integration_time "VEML6070_2_T" (driver Byte.x00 Byte.x00)))
    = trace (driver Byte.x00 Byte.x00).
Proof. repeat split; vm_compute; reflexivity. Qed.

(** C3 (defect in the code).  The table is meant to cover
    Low [0,561), Moderate [561,1121), High [1121,1495),
    VeryHigh [1495,2055), Extreme [2055,10000), so that a reading of
    2054 at mode One is VeryHigh.  The loop tests
    [range(1495, 2054)], which stops at 2053: no level is assigned and
    [return risk] raises. *)
Theorem uv_risk_2054_has_no_level :
  fst (uv_risk (driver Byte.x08 Byte.x06)) = Raise (UnboundLocalError "risk") ∧
  fst (read (driver Byte.x08 Byte.x06)) = Ok 2054.
Proof. split; vm_compute; reflexivity. Qed.

(** C4 (defect in the code).  Above the top of Extreme [uv_risk] is
    meant either to answer Extreme or to fail with an error of its own.
    At mode One with a reading of 10000 it does neither: the loop ends
    with [risk] unassigned and [return risk] raises the interpreter's
    [UnboundLocalError]. *)
Theorem uv_risk_10000_has_no_level :
  fst (uv_risk (driver Byte.x27 Byte.x10)) = Raise (UnboundLocalError "risk") ∧
  fst (read (driver Byte.x27 Byte.x10)) = Ok 10000.
Proof. split; vm_compute; reflexivity. Qed.

(** C5 (defect in the code).  At mode Half both [uv_risk] and
    [uva_light_sensitivity] are meant to fail with the same dedicated
    error.  [uv_risk] tests the divisor and raises its [ValueError];
    [uva_light_sensitivity] has no such test and fails with
    [ZeroDivisionError] from the division itself. *)
Theorem half_mode_errors_differ :
  integration_time (self (driver_in "VEML6070_HALF_T" Byte.x00 Byte.x00))
    = "VEML6070_HALF_T" ∧
  fst (uv_risk (driver_in "VEML6070_HALF_T" Byte.x00 Byte.x00)) =
    Raise (ValueError
      "[veml6070].get_index only available for Integration Times 1, 2, & 4.") ∧
  fst (uva_light_sensitivity (driver_in "VEML6070_HALF_T" Byte.x00 Byte.x00)) =
    Raise ZeroDivisionError.
Proof. repeat split; vm_compute; reflexivity. Qed.

(** C6 (defect in the code).  Construction is meant to start with a
    read directed at the alert-response address.  The constructor's
    first transfer is [writeto_mem]: a write to the device at the low
    data address, with the alert-response address passed as the
    register.  The command write that follows is as claimed. *)
Theorem constructor_starts_with_memory_write :
  trace (constructed (steady_bus Byte.x00) false) =
    [writeto_mem VEML6070_ADDR_LOW VEML6070_ADDR_ARA [0];
     writeto VEML6070_ADDR_CMD [4]] ∧
  VEML6070_ADDR_LOW ≠ VEML6070_ADDR_ARA.
Proof. split; vm_compute; [reflexivity | discriminate]. Qed.

(** C7.  Called with a string that is not one of the four keys,
    [set_integration_time] returns [False] and leaves the whole machine
    as it was: no attribute changes and nothing goes on the bus. *)
Theorem set_integration_time_rejects_unknown (it : string) (st : state) :
  it ∉ ["VEML6070_HALF_T"; "VEML6070_1_T"; "VEML6070_2_T"; "VEML6070_4_T"] →
  set_integration_time it st = (Ok false, st).
Proof.
  intros Hit. apply set_integration_time_not_key.
  apply eq_None_not_Some. by rewrite integration_time_keys.
Qed.

Lemma set_integration_time_rejects_unknown_witness :
  ("VEML6070_8_T" ∉
     ["VEML6070_HALF_T"; "VEML6070_1_T"; "VEML6070_2_T"; "VEML6070_4_T"]) ∧
  (set_integration_time "VEML6070_8_T" (driver Byte.x00 Byte.x00)
     = (Ok false, driver Byte.x00 Byte.x00)).
Proof.
  assert ("VEML6070_8_T" ∉
          ["VEML6070_HALF_T"; "VEML6070_1_T"; "VEML6070_2_T"; "VEML6070_4_T"])
    as Hit by (apply (bool_decide_unpack _); vm_compute; exact I).
  split; [exact Hit |].
  exact (set_integration_time_rejects_unknown "VEML6070_8_T" _ Hit).
Defined.

(** C8, as stated, fails: on a bus that refuses the wake write, [read]
    is aborted by the [OSError] of [wake] after that one write. *)
Lemma read_stops_at_refused_wake :
  fst (read deaf_driver) = Raise OSError ∧
  trace (snd (read deaf_driver)) =
    trace deaf_driver ++ [writeto VEML6070_ADDR_CMD [6]] ∧
  ¬ ∃ b d, trace (snd (read deaf_driver)) =
             trace deaf_driver ++
             [writeto VEML6070_ADDR_CMD [b]; sleep d;
              readfrom_into VEML6070_ADDR_LOW 1 1;
              readfrom_into VEML6070_ADDR_HIGH 1 1;
              writeto VEML6070_ADDR_CMD [3]].
Proof.
  split; [vm_compute; reflexivity |].
  split; [vm_compute; reflexivity |].
  intros (b & d & H). vm_compute in H. discriminate H.
Qed.

(** C8 (amended).  A call of [read] whose wake write and two data reads
    are acknowledged issues exactly: the wake write, the sleep of the
    refresh time, the read at the low data address, the read at the
    high data address and the shutdown write, in this order.  The
    shutdown write is issued whether or not the bus acknowledges it. *)
Theorem read_bus_sequence (st : state) (code mult : Z) (r : Q)
    (b0 l m : Byte.byte) :
  VEML6070_INTEGRATION_TIME !! integration_time (self st) = Some (code, mult) →
  ack_thd (self st) = 0 ∨ ack_thd (self st) = 1 →
  case_refresh_rset !! rset (self st) = Some r →
  i2c st (tick st) = Some b0 →
  i2c st (S (tick st)) = Some l →
  i2c st (S (S (tick st))) = Some m →
  fst (get_refresh_time st) = Ok (r * inject_Z mult)%Q ∧
  trace (snd (read st)) =
    trace st ++
    [writeto VEML6070_ADDR_CMD
       [Z.lor (Z.lor (Z.lor (Z.shiftl (Z.b2z (ack (self st))) 5)
                            (Z.shiftl (ack_thd (self st)) 4))
                     (Z.shiftl code 2))
              0x02];
     sleep (r * inject_Z mult);
     readfrom_into VEML6070_ADDR_LOW 1 1;
     readfrom_into VEML6070_ADDR_HIGH 1 1;
     writeto VEML6070_ADDR_CMD [0x03]].
Proof.
  intros Hit Hthd Hr H0 H1 H2. split.
  - by rewrite (get_refresh_time_run _ _ _ _ Hit Hr).
  - by rewrite (read_run _ _ _ _ _ _ _ Hit Hthd Hr H0 H1 H2).
Qed.

Lemma read_bus_sequence_witness :
  fst (get_refresh_time (driver Byte.x01 Byte.x02)) = Ok ((9 # 80) * inject_Z 1)%Q ∧
  trace (snd (read (driver Byte.x01 Byte.x02))) =
    trace (driver Byte.x01 Byte.x02) ++
    [writeto VEML6070_ADDR_CMD
       [Z.lor (Z.lor (Z.lor (Z.shiftl (Z.b2z (ack (self (driver Byte.x01 Byte.x02)))) 5)
                            (Z.shiftl (ack_thd (self (driver Byte.x01 Byte.x02))) 4))
                     (Z.shiftl 1 2))
              0x02];
     sleep ((9 # 80) * inject_Z 1);
     readfrom_into VEML6070_ADDR_LOW 1 1;
     readfrom_into VEML6070_ADDR_HIGH 1 1;
     writeto VEML6070_ADDR_CMD [0x03]].
Proof.
  apply (read_bus_sequence (driver Byte.x01 Byte.x02) 1 1 (9 # 80)
           Byte.x00 Byte.x01 Byte.x02).
  - vm_compute; reflexivity.
  - left; vm_compute; reflexivity.
  - vm_compute; reflexivity.
  - vm_compute; reflexivity.
  - vm_compute; reflexivity.
  - vm_compute; reflexivity.
Defined.

(** C9.  On every configuration whose integration time is a key of the
    dictionary (with command code [code]) and whose threshold is a bit,
    [wake] writes the byte
    [ack << 5 | ack_thd << 4 | code << 2 | 0x02] to the command
    address; on every configuration [shutdown] writes the literal
    [0x03] there. *)
Theorem wake_shutdown_command_bytes (st : state) (code mult : Z) :
  VEML6070_INTEGRATION_TIME !! integration_time (self st) = Some (code, mult) →
  ack_thd (self st) = 0 ∨ ack_thd (self st) = 1 →
  trace (snd (wake st)) =
    trace st ++
    [writeto VEML6070_ADDR_CMD
       [Z.lor (Z.lor (Z.lor (Z.shiftl (Z.b2z (ack (self st))) 5)
                            (Z.shiftl (ack_thd (self st)) 4))
                     (Z.shiftl code 2))
              0x02]] ∧
  trace (snd (shutdown st)) = trace st ++ [writeto VEML6070_ADDR_CMD [0x03]].
Proof.
  intros Hit Hthd. split.
  - by rewrite (wake_run _ _ _ Hit Hthd).
  - by rewrite shutdown_run.
Qed.

Lemma wake_shutdown_command_bytes_witness :
  trace (snd (wake (constructed (steady_bus Byte.x00) true))) =
    trace (constructed (steady_bus Byte.x00) true) ++
    [writeto VEML6070_ADDR_CMD
       [Z.lor (Z.lor (Z.lor
          (Z.shiftl (Z.b2z (ack (self (constructed (steady_bus Byte.x00) true)))) 5)
          (Z.shiftl (ack_thd (self (constructed (steady_bus Byte.x00) true))) 4))
          (Z.shiftl 1 2))
          0x02]] ∧
  trace (snd (shutdown (constructed (steady_bus Byte.x00) true))) =
    trace (constructed (steady_bus Byte.x00) true) ++
    [writeto VEML6070_ADDR_CMD [0x03]].
Proof.
  apply (wake_shutdown_command_bytes (constructed (steady_bus Byte.x00) true) 1 1).
  - vm_compute; reflexivity.
  - left; vm_compute; reflexivity.
Defined.

(** C10.  [read], [get_refresh_time], [uva_light_sensitivity],
    [uv_risk], [wake] and [shutdown] leave [integration_time], [ack],
    [ack_thd] and [rset] as they found them, whether they return or
    raise; [set_integration_time] is the method that assigns one of
    them. *)
Theorem configuration_frame (st : state) :
  config (self (snd (read st))) = config (self st) ∧
  config (self (snd (get_refresh_time st))) = config (self st) ∧
  config (self (snd (uva_light_sensitivity st))) = config (self st) ∧
  config (self (snd (uv_risk st))) = config (self st) ∧
  config (self (snd (wake st))) = config (self st) ∧
  config (self (snd (shutdown st))) = config (self st) ∧
  config (self (snd (set_integration_time "VEML6070_4_T" st))) =
    ("VEML6070_4_T", ack (self st), ack_thd (self st), rset (self st)).
Proof.
  split; [apply keeps_read |].
  split; [apply keeps_get_refresh_time |].
  split; [apply keeps_uva_light_sensitivity |].
  split; [apply keeps_uv_risk |].
  split; [apply keeps_wake |].
  split; [apply keeps_shutdown |].
  rewrite set_integration_time_key by (by eexists). reflexivity.
Qed.

(** ** Further properties of the methods *)

Lemma byte_to_Z_range b : 0 <= byte_to_Z b < 256.
Proof.
  unfold byte_to_Z. pose proof (Byte.to_N_bounded b). lia.
Qed.

(** Two bytes combined as [hi << 8 | lo] make a 16-bit value. *)
Lemma combine_range hi lo :
  0 <= hi < 256 → 0 <= lo < 256 → 0 <= Z.lor (Z.shiftl hi 8) lo < 65536.
Proof.
  intros Hhi Hlo.
  assert (0 <= Z.shiftl hi 8 < 65536) as Hs.
  { rewrite Z.shiftl_mul_pow2 by lia. change (2 ^ 8) with 256. lia. }
  split; [apply Z.lor_nonneg; lia |].
  destruct (Z.eq_dec (Z.lor (Z.shiftl hi 8) lo) 0) as [-> | Hne]; [lia |].
  assert (0 <= Z.lor (Z.shiftl hi 8) lo) by (apply Z.lor_nonneg; lia).
  change 65536 with (2 ^ 16). apply Z.log2_lt_pow2; [lia |].
  rewrite Z.log2_lor by lia.
  apply Z.max_lub_lt.
  - destruct (Z.eq_dec (Z.shiftl hi 8) 0) as [-> | ?]; [reflexivity |].
    apply Z.log2_lt_pow2; [lia |]. change (2 ^ 16) with 65536. lia.
  - destruct (Z.eq_dec lo 0) as [-> | ?]; [reflexivity |].
    apply Z.log2_lt_pow2; [lia |]. change (2 ^ 16) with 65536. lia.
Qed.

(** [read] when the wake write is refused. *)
Lemma read_wake_refused st code mult :
  VEML6070_INTEGRATION_TIME !! integration_time (self st) = Some (code, mult) →
  ack_thd (self st) = 0 ∨ ack_thd (self st) = 1 →
  i2c st (tick st) = None →
  read st =
    (Raise OSError,
     mkState (with_buf (self st) (wake_byte (self st) code)) (i2c st)
             (S (tick st))
             (trace st ++ [writeto VEML6070_ADDR_CMD [wake_byte (self st) code]])).
Proof.
  intros Hit Hthd H0. unfold read.
  erewrite bind_raise; [| rewrite (wake_run _ _ _ Hit Hthd), H0; reflexivity].
  reflexivity.
Qed.

Lemma i2c_readfrom_into_refused addr st :
  i2c st (tick st) = None →
  i2c_readfrom_into addr st =
    (Raise OSError,
     mkState (self st) (i2c st) (S (tick st))
             (trace st ++ [readfrom_into addr 1 1])).
Proof.
  intros H. unfold i2c_readfrom_into, bind, transaction. by rewrite H.
Qed.

(** [read] when the read at the low data address is refused. *)
Lemma read_low_refused st code mult r b0 :
  VEML6070_INTEGRATION_TIME !! integration_time (self st) = Some (code, mult) →
  ack_thd (self st) = 0 ∨ ack_thd (self st) = 1 →
  case_refresh_rset !! rset (self st) = Some r →
  i2c st (tick st) = Some b0 →
  i2c st (S (tick st)) = None →
  read st =
    (Raise OSError,
     mkState (with_buf (self st) (wake_byte (self st) code)) (i2c st)
             (S (S (tick st)))
             (trace st ++ [writeto VEML6070_ADDR_CMD [wake_byte (self st) code];
                           sleep (r * inject_Z mult);
                           readfrom_into VEML6070_ADDR_LOW 1 1])).
Proof.
  intros Hit Hthd Hr H0 H1. unfold read.
  erewrite bind_ok; [| rewrite (wake_run _ _ _ Hit Hthd), H0; reflexivity].
  erewrite bind_ok; [| by apply (get_refresh_time_run _ code mult r)].
  erewrite bind_ok; [| reflexivity].
  erewrite bind_raise; [| by apply i2c_readfrom_into_refused].
  cbn. rewrite <- !app_assoc. reflexivity.
Qed.

(** [read] when the read at the high data address is refused. *)
Lemma read_high_refused st code mult r b0 l :
  VEML6070_INTEGRATION_TIME !! integration_time (self st) = Some (code, mult) →
  ack_thd (self st) = 0 ∨ ack_thd (self st) = 1 →
  case_refresh_rset !! rset (self st) = Some r →
  i2c st (tick st) = Some b0 →
  i2c st (S (tick st)) = Some l →
  i2c st (S (S (tick st))) = None →
  read st =
    (Raise OSError,
     mkState (with_buf (self st) (wake_byte (self st) code)) (i2c st)
             (S (S (S (tick st))))
             (trace st ++ [writeto VEML6070_ADDR_CMD [wake_byte (self st) code];
                           sleep (r * inject_Z mult);
                           readfrom_into VEML6070_ADDR_LOW 1 1;
                           readfrom_into VEML6070_ADDR_HIGH 1 1])).
Proof.
  intros Hit Hthd Hr H0 H1 H2. unfold read.
  erewrite bind_ok; [| rewrite (wake_run _ _ _ Hit Hthd), H0; reflexivity].
  erewrite bind_ok; [| by apply (get_refresh_time_run _ code mult r)].
  erewrite bind_ok; [| reflexivity].
  erewrite bind_ok; [| by apply (i2c_readfrom_into_run _ _ l)].
  erewrite bind_raise; [| by apply i2c_readfrom_into_refused].
  cbn. rewrite <- !app_assoc. reflexivity.
Qed.

(** *** Steps that leave the machine alone *)

Lemma keeps_state_bind {A B} (m : M A) (k : A → M B) :
  keeps_state m → (∀ a, keeps_state (k a)) → keeps_state (bind m k).
Proof.
  intros Hm Hk st. unfold bind. specialize (Hm st).
  destruct (m st) as [[a | e] st']; cbn in Hm; subst st'; [apply Hk | done].
Qed.

Lemma keeps_state_getitem {V} (d : gmap string V) k : keeps_state (getitem d k).
Proof. intros st. unfold getitem. by destruct (d !! k). Qed.

Lemma bind_keeps_tail {A B} (m : M A) (k : A → M B) st :
  (∀ a, keeps_state (k a)) → snd (bind m k st) = snd (m st).
Proof.
  intros Hk. unfold bind. destruct (m st) as [[a | e] st']; [apply Hk | done].
Qed.

(** Walks through statements that neither assign nor use the bus. *)
Ltac pure_steps :=
  repeat first
    [ apply keeps_state_bind; [| intros ?]
    | apply keeps_state_getitem
    | match goal with
      | |- keeps_state (if ?c then _ else _) => destruct c
      | |- keeps_state (match ?x with _ => _ end) => destruct x
      end
    | solve [intros ?; reflexivity] ].

(** *** [shutdown] and [wake] *)

(** [shutdown] never raises.  It returns [True] when the bus takes the
    write and [False] when it refuses it; either way the buffer holds 3
    and one bus transfer has been spent. *)
Theorem shutdown_never_raises (st : state) :
  fst (shutdown st) =
    Ok (match i2c st (tick st) with Some _ => true | None => false end) ∧
  buf (self (snd (shutdown st))) = 3 ∧
  tick (snd (shutdown st)) = S (tick st).
Proof.
  rewrite shutdown_run. cbn. repeat split.
  by destruct (i2c st (tick st)).
Qed.

(** [wake], unlike [shutdown], lets the bus error through: it returns
    when the write is taken and raises [OSError] when it is refused.
    The composed byte is left in the buffer in both cases. *)
Theorem wake_propagates_bus_error (st : state) (code mult : Z) :
  VEML6070_INTEGRATION_TIME !! integration_time (self st) = Some (code, mult) →
  ack_thd (self st) = 0 ∨ ack_thd (self st) = 1 →
  fst (wake st) =
    match i2c st (tick st) with Some _ => Ok tt | None => Raise OSError end ∧
  buf (self (snd (wake st))) =
    Z.lor (Z.lor (Z.lor (Z.shiftl (Z.b2z (ack (self st))) 5)
                        (Z.shiftl (ack_thd (self st)) 4))
                 (Z.shiftl code 2))
          0x02.
Proof.
  intros Hit Hthd. by rewrite (wake_run _ _ _ Hit Hthd).
Qed.

Lemma wake_propagates_bus_error_witness :
  fst (wake deaf_driver) =
    match i2c deaf_driver (tick deaf_driver) with
    | Some _ => Ok tt
    | None => Raise OSError
    end ∧
  buf (self (snd (wake deaf_driver))) =
    Z.lor (Z.lor (Z.lor (Z.shiftl (Z.b2z (ack (self deaf_driver))) 5)
                        (Z.shiftl (ack_thd (self deaf_driver)) 4))
                 (Z.shiftl 1 2))
          0x02.
Proof.
  apply (wake_propagates_bus_error deaf_driver 1 1).
  - vm_compute; reflexivity.
  - left; vm_compute; reflexivity.
Defined.

(** The byte [wake] writes can be taken apart again: bit 5 is [ack],
    bit 4 is [ack_thd], bits 3-2 are the code of the integration time
    and the two low bits are [0b10]; in particular it is never the
    shutdown byte 3. *)
Theorem wake_byte_decodes (st : state) (code mult : Z) :
  VEML6070_INTEGRATION_TIME !! integration_time (self st) = Some (code, mult) →
  ack_thd (self st) = 0 ∨ ack_thd (self st) = 1 →
  trace (snd (wake st)) =
    trace st ++ [writeto VEML6070_ADDR_CMD [buf (self (snd (wake st)))]] ∧
  Z.land (Z.shiftr (buf (self (snd (wake st)))) 5) 1 = Z.b2z (ack (self st)) ∧
  Z.land (Z.shiftr (buf (self (snd (wake st)))) 4) 1 = ack_thd (self st) ∧
  Z.land (Z.shiftr (buf (self (snd (wake st)))) 2) 3 = code ∧
  Z.land (buf (self (snd (wake st)))) 3 = 2.
Proof.
  intros Hit Hthd. rewrite (wake_run _ _ _ Hit Hthd). cbn.
  split; [reflexivity |].
  unfold wake_byte. apply integration_time_inv in Hit.
  destruct (ack (self st)); destruct Hthd as [-> | ->];
    destruct Hit as [(_ & -> & _) | [(_ & -> & _) | [(_ & -> & _) | (_ & -> & _)]]];
    repeat split; reflexivity.
Qed.

Lemma wake_byte_decodes_witness :
  trace (snd (wake (driver_in "VEML6070_4_T" Byte.x00 Byte.x00))) =
    trace (driver_in "VEML6070_4_T" Byte.x00 Byte.x00) ++
    [writeto VEML6070_ADDR_CMD
       [buf (self (snd (wake (driver_in "VEML6070_4_T" Byte.x00 Byte.x00))))]] ∧
  Z.land (Z.shiftr (buf (self (snd (wake (driver_in "VEML6070_4_T" Byte.x00 Byte.x00))))) 5) 1
    = Z.b2z (ack (self (driver_in "VEML6070_4_T" Byte.x00 Byte.x00))) ∧
  Z.land (Z.shiftr (buf (self (snd (wake (driver_in "VEML6070_4_T" Byte.x00 Byte.x00))))) 4) 1
    = ack_thd (self (driver_in "VEML6070_4_T" Byte.x00 Byte.x00)) ∧
  Z.land (Z.shiftr (buf (self (snd (wake (driver_in "VEML6070_4_T" Byte.x00 Byte.x00))))) 2) 3
    = 3 ∧
  Z.land (buf (self (snd (wake (driver_in "VEML6070_4_T" Byte.x00 Byte.x00))))) 3 = 2.
Proof.
  apply (wake_byte_decodes (driver_in "VEML6070_4_T" Byte.x00 Byte.x00) 3 4).
  - vm_compute; reflexivity.
  - left; vm_compute; reflexivity.
Defined.

(** When the attribute [integration_time] is not a key of the
    dictionary (it can only get there by direct assignment), [wake],
    [read], [uva_light_sensitivity] and [uv_risk] raise [KeyError] on it
    before anything reaches the bus. *)
Theorem unknown_integration_time_raises_key_error (st : state) :
  VEML6070_INTEGRATION_TIME !! integration_time (self st) = None →
  wake st = (Raise (KeyError (integration_time (self st))), st) ∧
  read st = (Raise (KeyError (integration_time (self st))), st) ∧
  uva_light_sensitivity st = (Raise (KeyError (integration_time (self st))), st) ∧
  uv_risk st = (Raise (KeyError (integration_time (self st))), st).
Proof.
  intros Hit.
  assert (wake st = (Raise (KeyError (integration_time (self st))), st)) as Hw.
  { unfold wake, bind, get_self, getitem. by rewrite Hit. }
  assert (read st = (Raise (KeyError (integration_time (self st))), st)) as Hr.
  { unfold read. by erewrite bind_raise. }
  split; [exact Hw |]. split; [exact Hr |]. split.
  - unfold uva_light_sensitivity. by erewrite bind_raise.
  - unfold uv_risk. by erewrite bind_raise.
Qed.

Lemma unknown_integration_time_raises_key_error_witness :
  wake mistyped_driver =
    (Raise (KeyError (integration_time (self mistyped_driver))), mistyped_driver) ∧
  read mistyped_driver =
    (Raise (KeyError (integration_time (self mistyped_driver))), mistyped_driver) ∧
  uva_light_sensitivity mistyped_driver =
    (Raise (KeyError (integration_time (self mistyped_driver))), mistyped_driver) ∧
  uv_risk mistyped_driver =
    (Raise (KeyError (integration_time (self mistyped_driver))), mistyped_driver).
Proof.
  apply (unknown_integration_time_raises_key_error mistyped_driver).
  vm_compute; reflexivity.
Defined.

(** *** [read] *)

(** When the read at the low data address is refused, [read] raises
    [OSError] after the wake write, the sleep and that read: the
    shutdown write is not issued and the buffer still holds the wake
    byte. *)
Theorem read_low_refused_skips_shutdown (st : state) (code mult : Z) (r : Q)
    (b0 : Byte.byte) :
  VEML6070_INTEGRATION_TIME !! integration_time (self st) = Some (code, mult) →
  ack_thd (self st) = 0 ∨ ack_thd (self st) = 1 →
  case_refresh_rset !! rset (self st) = Some r →
  i2c st (tick st) = Some b0 →
  i2c st (S (tick st)) = None →
  fst (read st) = Raise OSError ∧
  trace (snd (read st)) =
    trace st ++
    [writeto VEML6070_ADDR_CMD [buf (self (snd (read st)))];
     sleep (r * inject_Z mult);
     readfrom_into VEML6070_ADDR_LOW 1 1] ∧
  Z.land (buf (self (snd (read st)))) 3 = 2.
Proof.
  intros Hit Hthd Hr H0 H1.
  rewrite (read_low_refused _ _ _ _ _ Hit Hthd Hr H0 H1). cbn.
  repeat split.
  unfold wake_byte. apply integration_time_inv in Hit.
  destruct (ack (self st)); destruct Hthd as [-> | ->];
    destruct Hit as [(_ & -> & _) | [(_ & -> & _) | [(_ & -> & _) | (_ & -> & _)]]];
    reflexivity.
Qed.

Lemma read_low_refused_skips_shutdown_witness :
  fst (read (constructed (answering None None) false)) = Raise OSError ∧
  trace (snd (read (constructed (answering None None) false))) =
    trace (constructed (answering None None) false) ++
    [writeto VEML6070_ADDR_CMD
       [buf (self (snd (read (constructed (answering None None) false))))];
     sleep ((9 # 80) * inject_Z 1);
     readfrom_into VEML6070_ADDR_LOW 1 1] ∧
  Z.land (buf (self (snd (read (constructed (answering None None) false))))) 3 = 2.
Proof.
  apply (read_low_refused_skips_shutdown
           (constructed (answering None None) false) 1 1 (9 # 80) Byte.x00).
  - vm_compute; reflexivity.
  - left; vm_compute; reflexivity.
  - vm_compute; reflexivity.
  - vm_compute; reflexivity.
  - vm_compute; reflexivity.
Defined.

(** The same when the read at the high data address is refused: the low
    byte already read is dropped, [OSError] is raised and the shutdown
    write is not issued. *)
Theorem read_high_refused_skips_shutdown (st : state) (code mult : Z) (r : Q)
    (b0 l : Byte.byte) :
  VEML6070_INTEGRATION_TIME !! integration_time (self st) = Some (code, mult) →
  ack_thd (self st) = 0 ∨ ack_thd (self st) = 1 →
  case_refresh_rset !! rset (self st) = Some r →
  i2c st (tick st) = Some b0 →
  i2c st (S (tick st)) = Some l →
  i2c st (S (S (tick st))) = None →
  fst (read st) = Raise OSError ∧
  trace (snd (read st)) =
    trace st ++
    [writeto VEML6070_ADDR_CMD [buf (self (snd (read st)))];
     sleep (r * inject_Z mult);
     readfrom_into VEML6070_ADDR_LOW 1 1;
     readfrom_into VEML6070_ADDR_HIGH 1 1] ∧
  Z.land (buf (self (snd (read st)))) 3 = 2.
Proof.
  intros Hit Hthd Hr H0 H1 H2.
  rewrite (read_high_refused _ _ _ _ _ _ Hit Hthd Hr H0 H1 H2). cbn.
  repeat split.
  unfold wake_byte. apply integration_time_inv in Hit.
  destruct (ack (self st)); destruct Hthd as [-> | ->];
    destruct Hit as [(_ & -> & _) | [(_ & -> & _) | [(_ & -> & _) | (_ & -> & _)]]];
    reflexivity.
Qed.

Lemma read_high_refused_skips_shutdown_witness :
  fst (read (constructed (answering (Some Byte.x07) None) false)) = Raise OSError ∧
  trace (snd (read (constructed (answering (Some Byte.x07) None) false))) =
    trace (constructed (answering (Some Byte.x07) None) false) ++
    [writeto VEML6070_ADDR_CMD
       [buf (self (snd (read (constructed (answering (Some Byte.x07) None) false))))];
     sleep ((9 # 80) * inject_Z 1);
     readfrom_into VEML6070_ADDR_LOW 1 1;
     readfrom_into VEML6070_ADDR_HIGH 1 1] ∧
  Z.land (buf (self (snd (read (constructed (answering (Some Byte.x07) None) false))))) 3
    = 2.
Proof.
  apply (read_high_refused_skips_shutdown
           (constructed (answering (Some Byte.x07) None) false) 1 1 (9 # 80)
           Byte.x00 Byte.x07).
  - vm_compute; reflexivity.
  - left; vm_compute; reflexivity.
  - vm_compute; reflexivity.
  - vm_compute; reflexivity.
  - vm_compute; reflexivity.
  - vm_compute; reflexivity.
Defined.

(** When the wake write and the two data reads are taken, [read]
    returns a value in [0, 65535] whatever becomes of the shutdown
    write; it has then spent four bus transfers and left the shutdown
    byte in the buffer. *)
Theorem read_returns_16_bit (st : state) (code mult : Z) (r : Q)
    (b0 l m : Byte.byte) :
  VEML6070_INTEGRATION_TIME !! integration_time (self st) = Some (code, mult) →
  ack_thd (self st) = 0 ∨ ack_thd (self st) = 1 →
  case_refresh_rset !! rset (self st) = Some r →
  i2c st (tick st) = Some b0 →
  i2c st (S (tick st)) = Some l →
  i2c st (S (S (tick st))) = Some m →
  (∃ raw, fst (read st) = Ok raw ∧ 0 <= raw < 65536) ∧
  buf (self (snd (read st))) = 3 ∧
  tick (snd (read st)) = S (S (S (S (tick st)))).
Proof.
  intros Hit Hthd Hr H0 H1 H2.
  rewrite (read_run _ _ _ _ _ _ _ Hit Hthd Hr H0 H1 H2). cbn.
  repeat split. eexists. split; [reflexivity |].
  apply combine_range; apply byte_to_Z_range.
Qed.

Lemma read_returns_16_bit_witness :
  (∃ raw, fst (read (constructed (answering (Some Byte.xff) (Some Byte.xff)) true))
            = Ok raw ∧ 0 <= raw < 65536) ∧
  buf (self (snd (read (constructed (answering (Some Byte.xff) (Some Byte.xff)) true))))
    = 3 ∧
  tick (snd (read (constructed (answering (Some Byte.xff) (Some Byte.xff)) true))) =
    S (S (S (S (tick (constructed (answering (Some Byte.xff) (Some Byte.xff)) true))))).
Proof.
  apply (read_returns_16_bit
           (constructed (answering (Some Byte.xff) (Some Byte.xff)) true)
           1 1 (9 # 80) Byte.x00 Byte.xff Byte.xff).
  - vm_compute; reflexivity.
  - left; vm_compute; reflexivity.
  - vm_compute; reflexivity.
  - vm_compute; reflexivity.
  - vm_compute; reflexivity.
  - vm_compute; reflexivity.
Defined.

(** *** One measurement per query *)

(** [uv_risk] and [uva_light_sensitivity] do one [read] and nothing
    else to the machine: whatever they return or raise, the attributes,
    the bus transfers spent and the bus traffic are those of [read]. *)
Theorem queries_measure_once (st : state) :
  snd (uv_risk st) = snd (read st) ∧
  snd (uva_light_sensitivity st) = snd (read st).
Proof.
  split.
  - unfold uv_risk. apply bind_keeps_tail. intros raw. pure_steps.
  - unfold uva_light_sensitivity. apply bind_keeps_tail. intros raw. pure_steps.
Qed.

(** *** [set_integration_time] *)

(** [set_integration_time] never reaches the bus and never touches the
    buffer: it either returns [False] or raises [NameError]. *)
Theorem set_integration_time_never_writes (it : string) (st : state) :
  trace (snd (set_integration_time it st)) = trace st ∧
  tick (snd (set_integration_time it st)) = tick st ∧
  buf (self (snd (set_integration_time it st))) = buf (self st) ∧
  (fst (set_integration_time it st) = Ok false ∨
   fst (set_integration_time it st) = Raise (NameError "ack")).
Proof.
  destruct (VEML6070_INTEGRATION_TIME !! it) eqn:E.
  - rewrite set_integration_time_key by (by eexists). cbn. auto.
  - rewrite set_integration_time_not_key by done. cbn. auto.
Qed.

(** The mode a raising [set_integration_time] has stored is the one the
    next [wake] encodes and the next [get_refresh_time] multiplies by. *)
Theorem stored_mode_takes_effect (it : string) (st : state) (code mult : Z) (r : Q) :
  VEML6070_INTEGRATION_TIME !! it = Some (code, mult) →
  ack_thd (self st) = 0 ∨ ack_thd (self st) = 1 →
  case_refresh_rset !! rset (self st) = Some r →
  trace (snd (wake (snd (set_integration_time it st)))) =
    trace st ++
    [writeto VEML6070_ADDR_CMD
       [Z.lor (Z.lor (Z.lor (Z.shiftl (Z.b2z (ack (self st))) 5)
                            (Z.shiftl (ack_thd (self st)) 4))
                     (Z.shiftl code 2))
              0x02]] ∧
  fst (get_refresh_time (snd (set_integration_time it st))) =
    Ok (r * inject_Z mult)%Q.
Proof.
  intros Hit Hthd Hr.
  rewrite set_integration_time_key by (by eexists). split.
  - by erewrite wake_run.
  - by erewrite get_refresh_time_run.
Qed.

Lemma stored_mode_takes_effect_witness :
  trace (snd (wake (snd (set_integration_time "VEML6070_4_T" (driver Byte.x00 Byte.x00))))) =
    trace (driver Byte.x00 Byte.x00) ++
    [writeto VEML6070_ADDR_CMD
       [Z.lor (Z.lor (Z.lor (Z.shiftl (Z.b2z (ack (self (driver Byte.x00 Byte.x00)))) 5)
                            (Z.shiftl (ack_thd (self (driver Byte.x00 Byte.x00))) 4))
                     (Z.shiftl 3 2))
              0x02]] ∧
  fst (get_refresh_time (snd (set_integration_time "VEML6070_4_T" (driver Byte.x00 Byte.x00)))) =
    Ok ((9 # 80) * inject_Z 4)%Q.
Proof.
  apply (stored_mode_takes_effect "VEML6070_4_T" (driver Byte.x00 Byte.x00) 3 4 (9 # 80)).
  - vm_compute; reflexivity.
  - left; vm_compute; reflexivity.
  - vm_compute; reflexivity.
Defined.

(** *** The risk table *)

Lemma risk_loop_found levels x level :
  risk_loop levels x = Some level →
  ∃ start stop, (level, (start, stop)) ∈ levels ∧ in_range x start stop = true.
Proof.
  induction levels as [| [lv [a b]] rest IH]; cbn; [done |].
  destruct (in_range x a b) eqn:E.
  - intros [= <-]. exists a, b. split; [apply list_elem_of_here | done].
  - intros H. destruct (IH H) as (a' & b' & Hin & Hr).
    exists a', b'. split; [by apply list_elem_of_further | done].
Qed.

Lemma risk_loop_missed levels x level start stop :
  risk_loop levels x = None →
  (level, (start, stop)) ∈ levels → in_range x start stop = false.
Proof.
  induction levels as [| [lv [a b]] rest IH]; cbn.
  - intros _ H. by apply elem_of_nil in H.
  - destruct (in_range x a b) eqn:E; [done |].
    intros H Hin. apply elem_of_cons in Hin as [[= -> -> ->] | Hin]; [done |].
    by apply IH.
Qed.

(** In the table of the source the ranges do not overlap: an entry
    whose range holds [x] is the one the loop stops at. *)
Lemma risk_table_entry x level start stop :
  (level, (start, stop)) ∈ RISK_LEVEL_RSET_270K →
  in_range x start stop = true →
  risk_loop RISK_LEVEL_RSET_270K x = Some level.
Proof.
  unfold RISK_LEVEL_RSET_270K. intros Hin Hr.
  unfold in_range in Hr. apply andb_true_iff in Hr as [Hlo Hhi].
  apply Z.leb_le in Hlo. apply Z.ltb_lt in Hhi.
  apply risk_loop_assigned.
  repeat (apply elem_of_cons in Hin as [[= -> -> ->] | Hin]; [pick_level |]).
  by apply elem_of_nil in Hin.
Qed.

(** The level found does not depend on the order in which the
    dictionary of levels is iterated (MicroPython does not promise the
    order of the literal): on every rearrangement of the table the loop
    gives the result it gives on the table as written. *)
Theorem risk_loop_order_independent (levels : list (string * (Z * Z))) (x : Z) :
  levels ≡ₚ RISK_LEVEL_RSET_270K →
  risk_loop levels x = risk_loop RISK_LEVEL_RSET_270K x.
Proof.
  intros Hp. destruct (risk_loop levels x) as [level |] eqn:E.
  - apply risk_loop_found in E as (a & b & Hin & Hr).
    rewrite Hp in Hin. symmetry. by eapply risk_table_entry.
  - destruct (risk_loop RISK_LEVEL_RSET_270K x) as [level |] eqn:E'; [| done].
    apply risk_loop_found in E' as (a & b & Hin & Hr).
    rewrite <- Hp in Hin.
    by rewrite (risk_loop_missed _ _ _ _ _ E Hin) in Hr.
Qed.

Lemma risk_loop_order_independent_witness :
  reverse RISK_LEVEL_RSET_270K ≡ₚ RISK_LEVEL_RSET_270K ∧
  risk_loop (reverse RISK_LEVEL_RSET_270K) 1200 = risk_loop RISK_LEVEL_RSET_270K 1200.
Proof.
  split; [apply reverse_Permutation |].
  apply (risk_loop_order_independent (reverse RISK_LEVEL_RSET_270K) 1200).
  apply reverse_Permutation.
Defined.

(** What [uv_risk] answers after a measurement that went through, at a
    nonzero multiplier: with [adj] the reading divided by the
    multiplier, LOW on [0, 560), MODERATE on [561, 1120), HIGH on
    [1121, 1494), VERY HIGH on [1495, 2054), EXTREME on [2055, 9999);
    at 560, 1120, 1494, 2054 and from 9999 on it raises on the
    unassigned local [risk]. *)
Theorem uv_risk_levels (st : state) (code mult : Z) (b0 l m : Byte.byte)
    (level : string) :
  VEML6070_INTEGRATION_TIME !! integration_time (self st) = Some (code, mult) →
  mult ≠ 0 →
  ack_thd (self st) = 0 ∨ ack_thd (self st) = 1 →
  rset (self st) = "RSET_270K" →
  i2c st (tick st) = Some b0 →
  i2c st (S (tick st)) = Some l →
  i2c st (S (S (tick st))) = Some m →
  (fst (uv_risk st) = Ok level ↔
     (level = "LOW" ∧
      0 <= Z.quot (Z.lor (Z.shiftl (byte_to_Z l) 8) (byte_to_Z m)) mult < 560) ∨
     (level = "MODERATE" ∧
      561 <= Z.quot (Z.lor (Z.shiftl (byte_to_Z l) 8) (byte_to_Z m)) mult < 1120) ∨
     (level = "HIGH" ∧
      1121 <= Z.quot (Z.lor (Z.shiftl (byte_to_Z l) 8) (byte_to_Z m)) mult < 1494) ∨
     (level = "VERY HIGH" ∧
      1495 <= Z.quot (Z.lor (Z.shiftl (byte_to_Z l) 8) (byte_to_Z m)) mult < 2054) ∨
     (level = "EXTREME" ∧
      2055 <= Z.quot (Z.lor (Z.shiftl (byte_to_Z l) 8) (byte_to_Z m)) mult < 9999)) ∧
  (fst (uv_risk st) = Raise (UnboundLocalError "risk") ↔
     Z.quot (Z.lor (Z.shiftl (byte_to_Z l) 8) (byte_to_Z m)) mult = 560 ∨
     Z.quot (Z.lor (Z.shiftl (byte_to_Z l) 8) (byte_to_Z m)) mult = 1120 ∨
     Z.quot (Z.lor (Z.shiftl (byte_to_Z l) 8) (byte_to_Z m)) mult = 1494 ∨
     Z.quot (Z.lor (Z.shiftl (byte_to_Z l) 8) (byte_to_Z m)) mult = 2054 ∨
     9999 <= Z.quot (Z.lor (Z.shiftl (byte_to_Z l) 8) (byte_to_Z m)) mult).
Proof.
  intros Hit Hmult Hthd Hrset H0 H1 H2.
  assert (case_refresh_rset !! rset (self st) = Some (9 # 80)%Q) as Hr
    by (by rewrite Hrset).
  rewrite (uv_risk_run _ _ _ _ _ _ _ Hit Hthd Hr H0 H1 H2).
  apply Z.eqb_neq in Hmult as Hm0. rewrite Hm0, Hrset.
  change (VEML6070_RISK_LEVEL !! "RSET_270K") with (Some RISK_LEVEL_RSET_270K).
  set (adj := Z.quot _ mult).
  assert (0 <= adj) as Hadj.
  { pose proof (combine_range _ _ (byte_to_Z_range l) (byte_to_Z_range m)).
    apply integration_time_inv in Hit.
    apply Z.quot_pos; [lia |].
    destruct Hit as [(_ & _ & ->) | [(_ & _ & ->) | [(_ & _ & ->) | (_ & _ & ->)]]];
      lia. }
  destruct (risk_loop RISK_LEVEL_RSET_270K adj) as [lv |] eqn:E; rewrite ?E.
  - split.
    + rewrite <- risk_loop_assigned, E. split; congruence.
    + split; [intros Hx; discriminate Hx |]. intros Hx.
      assert (risk_loop RISK_LEVEL_RSET_270K adj = None) as E'
        by (apply risk_loop_unassigned; lia).
      congruence.
  - split.
    + rewrite <- risk_loop_assigned, E. split; congruence.
    + apply risk_loop_unassigned in E. split; intros _; [lia | done].
Qed.

Lemma uv_risk_levels_witness :
  (fst (uv_risk (driver Byte.x03 Byte.x20)) = Ok "MODERATE" ↔
     ("MODERATE" = "LOW" ∧
      0 <= Z.quot (Z.lor (Z.shiftl (byte_to_Z Byte.x03) 8) (byte_to_Z Byte.x20)) 1 < 560) ∨
     ("MODERATE" = "MODERATE" ∧
      561 <= Z.quot (Z.lor (Z.shiftl (byte_to_Z Byte.x03) 8) (byte_to_Z Byte.x20)) 1 < 1120) ∨
     ("MODERATE" = "HIGH" ∧
      1121 <= Z.quot (Z.lor (Z.shiftl (byte_to_Z Byte.x03) 8) (byte_to_Z Byte.x20)) 1 < 1494) ∨
     ("MODERATE" = "VERY HIGH" ∧
      1495 <= Z.quot (Z.lor (Z.shiftl (byte_to_Z Byte.x03) 8) (byte_to_Z Byte.x20)) 1 < 2054) ∨
     ("MODERATE" = "EXTREME" ∧
      2055 <= Z.quot (Z.lor (Z.shiftl (byte_to_Z Byte.x03) 8) (byte_to_Z Byte.x20)) 1 < 9999)) ∧
  (fst (uv_risk (driver Byte.x03 Byte.x20)) = Raise (UnboundLocalError "risk") ↔
     Z.quot (Z.lor (Z.shiftl (byte_to_Z Byte.x03) 8) (byte_to_Z Byte.x20)) 1 = 560 ∨
     Z.quot (Z.lor (Z.shiftl (byte_to_Z Byte.x03) 8) (byte_to_Z Byte.x20)) 1 = 1120 ∨
     Z.quot (Z.lor (Z.shiftl (byte_to_Z Byte.x03) 8) (byte_to_Z Byte.x20)) 1 = 1494 ∨
     Z.quot (Z.lor (Z.shiftl (byte_to_Z Byte.x03) 8) (byte_to_Z Byte.x20)) 1 = 2054 ∨
     9999 <= Z.quot (Z.lor (Z.shiftl (byte_to_Z Byte.x03) 8) (byte_to_Z Byte.x20)) 1).
Proof.
  apply (uv_risk_levels (driver Byte.x03 Byte.x20) 1 1 Byte.x00 Byte.x03 Byte.x20
           "MODERATE").
  - vm_compute; reflexivity.
  - lia.
  - left; vm_compute; reflexivity.
  - vm_compute; reflexivity.
  - vm_compute; reflexivity.
  - vm_compute; reflexivity.
  - vm_compute; reflexivity.
Defined.

(** *** The constructor *)

(** The constructor returns when the bus takes both of its transfers
    and raises [OSError] otherwise; when the first is refused the
    command byte is never sent.  The attributes are assigned in every
    case. *)
Theorem constructor_outcome (bus : nat → option Byte.byte) (ack0 : bool) :
  fst (__init__ ack0 (boot bus)) =
    match bus 0%nat, bus 1%nat with
    | Some _, Some _ => Ok tt
    | _, _ => Raise OSError
    end ∧
  trace (constructed bus ack0) =
    match bus 0%nat with
    | Some _ =>
        [writeto_mem VEML6070_ADDR_LOW VEML6070_ADDR_ARA [0];
         writeto VEML6070_ADDR_CMD [Z.lor (Z.shiftl (Z.b2z ack0) 5) (Z.shiftl 1 2)]]
    | None => [writeto_mem VEML6070_ADDR_LOW VEML6070_ADDR_ARA [0]]
    end ∧
  config (self (constructed bus ack0)) = ("VEML6070_1_T", ack0, 0, "RSET_270K").
Proof.
  split; [| split; [| apply constructed_config]].
  - unfold __init__.
    erewrite bind_ok; [| reflexivity].
    erewrite bind_ok; [| reflexivity].
    destruct (bus 0%nat) as [b0 |] eqn:E0.
    + erewrite bind_ok; [| rewrite i2c_writeto_mem_run; cbn; rewrite E0; reflexivity].
      erewrite bind_ok; [| reflexivity].
      erewrite bind_ok; [| by destruct ack0].
      erewrite bind_ok; [| reflexivity].
      rewrite i2c_writeto_run. cbn. by destruct (bus 1%nat).
    + erewrite bind_raise;
        [| rewrite i2c_writeto_mem_run; cbn; rewrite E0; reflexivity].
      reflexivity.
  - destruct (bus 0%nat) as [b0 |] eqn:E0.
    + by apply (constructed_trace _ _ b0).
    + by apply constructed_trace_failed.
Qed.

(** *** What holds of every driver a program can hold *)

Lemma steady_config o o' : config o' = config o → steady o → steady o'.
Proof.
  unfold config, steady. intros [= Hit _ Hthd Hrset].
  by rewrite Hit, Hthd, Hrset.
Qed.

Lemma set_integration_time_steady it st :
  steady (self st) → steady (self (snd (set_integration_time it st))).
Proof.
  intros (Hit & Hthd & Hrset).
  destruct (VEML6070_INTEGRATION_TIME !! it) eqn:E.
  - rewrite set_integration_time_key by (by eexists).
    unfold steady. cbn. by rewrite E.
  - by rewrite set_integration_time_not_key.
Qed.

Lemma reachable_is_steady st : reachable st → steady (self st).
Proof.
  intros Hst.
  induction Hst as [bus ack0 _ | it st _ IH | st _ IH | st _ IH | st _ IH
                    | st _ IH | st _ IH | st _ IH].
  - pose proof (constructed_config bus ack0) as [= Hit _ Hthd Hrset].
    unfold steady. rewrite Hit, Hthd, Hrset. by split; [eexists |].
  - by apply set_integration_time_steady.
  - by eapply steady_config; [apply keeps_get_refresh_time |].
  - by eapply steady_config; [apply keeps_read |].
  - by eapply steady_config; [apply keeps_uva_light_sensitivity |].
  - by eapply steady_config; [apply keeps_uv_risk |].
  - by eapply steady_config; [apply keeps_shutdown |].
  - by eapply steady_config; [apply keeps_wake |].
Qed.

(** Whatever methods have been called, and whether they returned or
    raised, the integration time is a key of the dictionary, the
    threshold is 0 and the resistor setting is ["RSET_270K"]. *)
Theorem reachable_steady (st : state) :
  reachable st →
  is_Some (VEML6070_INTEGRATION_TIME !! integration_time (self st)) ∧
  ack_thd (self st) = 0 ∧
  rset (self st) = "RSET_270K".
Proof.
  intros Hst.
  destruct (reachable_is_steady st Hst) as (Hit & Hthd & Hrset).
  split; [exact Hit |].
  split; [exact Hthd | exact Hrset].
Qed.

Lemma reachable_steady_witness :
  reachable (snd (read (driver_in "VEML6070_2_T" Byte.x01 Byte.x02))) ∧
  is_Some (VEML6070_INTEGRATION_TIME !!
             integration_time (self (snd (read (driver_in "VEML6070_2_T" Byte.x01 Byte.x02))))) ∧
  ack_thd (self (snd (read (driver_in "VEML6070_2_T" Byte.x01 Byte.x02)))) = 0 ∧
  rset (self (snd (read (driver_in "VEML6070_2_T" Byte.x01 Byte.x02)))) = "RSET_270K".
Proof.
  assert (reachable (snd (read (driver_in "VEML6070_2_T" Byte.x01 Byte.x02)))) as H.
  { apply reach_read, reach_set_integration_time, reach_constructed.
    vm_compute; reflexivity. }
  split; [exact H |].
  exact (reachable_steady _ H).
Defined.

(** On such a driver [get_refresh_time] never raises and changes
    nothing: it returns 0.1125 times the multiplier of the current
    mode, which is no wait at all at the half mode. *)
Theorem get_refresh_time_reachable (st : state) :
  reachable st →
  ∃ code mult,
    VEML6070_INTEGRATION_TIME !! integration_time (self st) = Some (code, mult) ∧
    get_refresh_time st = (Ok ((9 # 80) * inject_Z mult)%Q, st) ∧
    (integration_time (self st) = "VEML6070_HALF_T" → mult = 0).
Proof.
  intros Hst. apply reachable_is_steady in Hst as ([[code mult] Hit] & _ & Hrset).
  exists code, mult. split; [done |]. split.
  - apply (get_refresh_time_run _ code). { done. } by rewrite Hrset.
  - intros Hh. rewrite Hh in Hit. by injection Hit as _ <-.
Qed.

Lemma get_refresh_time_reachable_witness :
  reachable (driver_in "VEML6070_HALF_T" Byte.x00 Byte.x00) ∧
  ∃ code mult,
    VEML6070_INTEGRATION_TIME !!
      integration_time (self (driver_in "VEML6070_HALF_T" Byte.x00 Byte.x00))
      = Some (code, mult) ∧
    get_refresh_time (driver_in "VEML6070_HALF_T" Byte.x00 Byte.x00) =
      (Ok ((9 # 80) * inject_Z mult)%Q, driver_in "VEML6070_HALF_T" Byte.x00 Byte.x00) ∧
    (integration_time (self (driver_in "VEML6070_HALF_T" Byte.x00 Byte.x00))
       = "VEML6070_HALF_T" → mult = 0).
Proof.
  assert (reachable (driver_in "VEML6070_HALF_T" Byte.x00 Byte.x00)) as H.
  { apply reach_set_integration_time, reach_constructed. vm_compute; reflexivity. }
  split; [exact H |].
  exact (get_refresh_time_reachable _ H).
Defined.

(** On such a driver [read] has two outcomes only: a value in
    [0, 65535], or the [OSError] of the bus. *)
Theorem read_reachable (st : state) :
  reachable st →
  (∃ raw, fst (read st) = Ok raw ∧ 0 <= raw < 65536) ∨
  fst (read st) = Raise OSError.
Proof.
  intros Hst. apply reachable_is_steady in Hst as ([[code mult] Hit] & Hthd & Hrset).
  assert (ack_thd (self st) = 0 ∨ ack_thd (self st) = 1) as Hthd' by (by left).
  assert (case_refresh_rset !! rset (self st) = Some (9 # 80)%Q) as Hr
    by (by rewrite Hrset).
  destruct (i2c st (tick st)) as [b0 |] eqn:E0.
  - destruct (i2c st (S (tick st))) as [l |] eqn:E1.
    + destruct (i2c st (S (S (tick st)))) as [m |] eqn:E2.
      * left. rewrite (read_run _ _ _ _ _ _ _ Hit Hthd' Hr E0 E1 E2). cbn.
        eexists. split; [reflexivity |].
        apply combine_range; apply byte_to_Z_range.
      * right. by rewrite (read_high_refused _ _ _ _ _ _ Hit Hthd' Hr E0 E1 E2).
    + right. by rewrite (read_low_refused _ _ _ _ _ Hit Hthd' Hr E0 E1).
  - right. by rewrite (read_wake_refused _ _ _ Hit Hthd' E0).
Qed.

Lemma read_reachable_witness :
  reachable (driver Byte.x12 Byte.x34) ∧
  ((∃ raw, fst (read (driver Byte.x12 Byte.x34)) = Ok raw ∧ 0 <= raw < 65536) ∨
   fst (read (driver Byte.x12 Byte.x34)) = Raise OSError).
Proof.
  assert (reachable (driver Byte.x12 Byte.x34)) as H.
  { apply reach_constructed. vm_compute; reflexivity. }
  split; [exact H |].
  exact (read_reachable _ H).
Defined.

Lemma read_steady_cases st :
  steady (self st) →
  (∃ b0 l m, i2c st (tick st) = Some b0 ∧ i2c st (S (tick st)) = Some l ∧
             i2c st (S (S (tick st))) = Some m) ∨
  (∃ st', read st = (Raise OSError, st')).
Proof.
  intros ([[code mult] Hit] & Hthd & Hrset).
  assert (ack_thd (self st) = 0 ∨ ack_thd (self st) = 1) as Hthd' by (by left).
  assert (case_refresh_rset !! rset (self st) = Some (9 # 80)%Q) as Hr
    by (by rewrite Hrset).
  destruct (i2c st (tick st)) as [b0 |] eqn:E0.
  - destruct (i2c st (S (tick st))) as [l |] eqn:E1.
    + destruct (i2c st (S (S (tick st)))) as [m |] eqn:E2.
      * left. by exists b0, l, m.
      * right. eexists. by apply (read_high_refused _ _ _ _ _ _ Hit Hthd' Hr E0 E1 E2).
    + right. eexists. by apply (read_low_refused _ _ _ _ _ Hit Hthd' Hr E0 E1).
  - right. eexists. by apply (read_wake_refused _ _ _ Hit Hthd' E0).
Qed.

(** On such a driver [uv_risk] returns one of the five level names or
    raises one of three errors: the [OSError] of the bus, its own
    [ValueError] at the half mode, or the error on the unassigned local
    [risk]. *)
Theorem uv_risk_reachable (st : state) :
  reachable st →
  (∃ level, fst (uv_risk st) = Ok level ∧
            level ∈ ["LOW"; "MODERATE"; "HIGH"; "VERY HIGH"; "EXTREME"]) ∨
  fst (uv_risk st) = Raise OSError ∨
  fst (uv_risk st) =
    Raise (ValueError
      "[veml6070].get_index only available for Integration Times 1, 2, & 4.") ∨
  fst (uv_risk st) = Raise (UnboundLocalError "risk").
Proof.
  intros Hst. apply reachable_is_steady in Hst as Hs.
  destruct (read_steady_cases st Hs) as [(b0 & l & m & E0 & E1 & E2) | [st' Hf]].
  - destruct Hs as ([[code mult] Hit] & Hthd & Hrset).
    assert (case_refresh_rset !! rset (self st) = Some (9 # 80)%Q) as Hr
      by (by rewrite Hrset).
    rewrite (uv_risk_run _ _ _ _ _ _ _ Hit (or_introl Hthd) Hr E0 E1 E2).
    destruct (mult =? 0); [by right; right; left |].
    rewrite Hrset.
    change (VEML6070_RISK_LEVEL !! "RSET_270K") with (Some RISK_LEVEL_RSET_270K).
    match goal with
    | |- context [risk_loop _ ?x] =>
        destruct (risk_loop RISK_LEVEL_RSET_270K x) as [lv |] eqn:E
    end; rewrite ?E.
    + left. exists lv. split; [done |].
      apply risk_loop_assigned in E. rewrite !elem_of_cons. tauto.
    + by repeat right.
  - right; left. unfold uv_risk. by erewrite bind_raise.
Qed.

Lemma uv_risk_reachable_witness :
  reachable (driver Byte.x08 Byte.x06) ∧
  ((∃ level, fst (uv_risk (driver Byte.x08 Byte.x06)) = Ok level ∧
             level ∈ ["LOW"; "MODERATE"; "HIGH"; "VERY HIGH"; "EXTREME"]) ∨
   fst (uv_risk (driver Byte.x08 Byte.x06)) = Raise OSError ∨
   fst (uv_risk (driver Byte.x08 Byte.x06)) =
     Raise (ValueError
       "[veml6070].get_index only available for Integration Times 1, 2, & 4.") ∨
   fst (uv_risk (driver Byte.x08 Byte.x06)) = Raise (UnboundLocalError "risk")).
Proof.
  assert (reachable (driver Byte.x08 Byte.x06)) as H.
  { apply reach_constructed. vm_compute; reflexivity. }
  split; [exact H |].
  exact (uv_risk_reachable _ H).
Defined.

(** On such a driver [uva_light_sensitivity] returns a value that is
    not negative, or raises the [OSError] of the bus, or, at the half
    mode, [ZeroDivisionError]. *)
Theorem uva_light_sensitivity_reachable (st : state) :
  reachable st →
  (∃ q, fst (uva_light_sensitivity st) = Ok q ∧ (0 <= q)%Q) ∨
  fst (uva_light_sensitivity st) = Raise OSError ∨
  fst (uva_light_sensitivity st) = Raise ZeroDivisionError.
Proof.
  intros Hst. apply reachable_is_steady in Hst as Hs.
  destruct (read_steady_cases st Hs) as [(b0 & l & m & E0 & E1 & E2) | [st' Hf]].
  - destruct Hs as ([[code mult] Hit] & Hthd & Hrset).
    assert (case_refresh_rset !! rset (self st) = Some (9 # 80)%Q) as Hr
      by (by rewrite Hrset).
    rewrite (uva_light_sensitivity_run _ _ _ _ _ _ _ Hit (or_introl Hthd) Hr E0 E1 E2).
    destruct (mult =? 0) eqn:Em; [by right; right |].
    left. eexists. split; [reflexivity |].
    pose proof (combine_range _ _ (byte_to_Z_range l) (byte_to_Z_range m)) as Hraw.
    apply Qmult_le_0_compat.
    + unfold Qle. cbn. lia.
    + apply integration_time_inv in Hit.
      destruct Hit as [(_ & _ & ->) | [(_ & _ & ->) | [(_ & _ & ->) | (_ & _ & ->)]]];
        vm_compute; discriminate.
  - right; left. unfold uva_light_sensitivity. by erewrite bind_raise.
Qed.

Lemma uva_light_sensitivity_reachable_witness :
  reachable (driver Byte.x03 Byte.xe8) ∧
  ((∃ q, fst (uva_light_sensitivity (driver Byte.x03 Byte.xe8)) = Ok q ∧ (0 <= q)%Q) ∨
   fst (uva_light_sensitivity (driver Byte.x03 Byte.xe8)) = Raise OSError ∨
   fst (uva_light_sensitivity (driver Byte.x03 Byte.xe8)) = Raise ZeroDivisionError).
Proof.
  assert (reachable (driver Byte.x03 Byte.xe8)) as H.
  { apply reach_constructed. vm_compute; reflexivity. }
  split; [exact H |].
  exact (uva_light_sensitivity_reachable _ H).
Defined.
